(** * BookingSystem front end: the home page view-model and the route table

  Embedding of
    - [frontend/src/app/pages/home/home.component.ts] (class [HomeComponent]
      and its decorator)
    - the route configuration that follows it ([routes]).

  The class is given twice: as the record of values a fresh instance
  holds ([Home.new_HomeComponent]) and as the text of its body
  ([Home.HomeComponent_members]), evaluated by [Home.construct]; the
  two are proved to agree.

  Strings are [string]s holding the UTF-8 bytes of the source literals.
  The string properties used below are equality, emptiness and the shape
  of ASCII parts, which do not depend on the encoding (UTF-8 here,
  UTF-16 code units in the running program). *)

From stdpp Require Import base option list strings gmap.

(** ** Expressions and values of the language the class is written in

    Only what a property initialiser of a class can be built from here:
    the four literal forms the source uses, and the two forms by which
    an initialiser could read anything that is not written in it, a
    name of the enclosing scope and a property of the instance under
    construction. *)

Module Script.

Set Warnings "-register-all".

Inductive Expr :=
| BooleanLiteral (b : bool)
| StringLiteral (s : string)
| ArrayLiteral (elements : list Expr)
| ObjectLiteral (properties : list (string * Expr))
| Identifier (x : string)
| ThisProperty (name : string).

Inductive Value :=
| VUndefined
| VBoolean (b : bool)
| VString (s : string)
| VArray (elements : list Value)
| VObject (properties : list (string * Value)).

(** An object is its own properties in the order they were created. *)
Definition Object := list (string * Value).

(** What the names of the enclosing scope are bound to when an
    expression is evaluated. *)
Definition Env := gmap string Value.

(** Reading a property: [undefined] when the object has none of that
    name. *)
Definition get (o : Object) (k : string) : Value :=
  default VUndefined (snd <$> find (λ p, bool_decide (p.1 = k)) o).

(** Writing a property: in place when the object has one of that name,
    as a new last property otherwise. *)
Fixpoint set (o : Object) (k : string) (v : Value) : Object :=
  match o with
  | [] => [(k, v)]
  | (k', v') :: rest =>
      if bool_decide (k' = k) then (k, v) :: rest
      else (k', v') :: set rest k v
  end.

(** Evaluation.  [None] is the reference error raised by a name the
    scope does not bind. *)
Fixpoint eval (env : Env) (this : Object) (e : Expr) : option Value :=
  match e with
  | BooleanLiteral b => Some (VBoolean b)
  | StringLiteral s => Some (VString s)
  | ArrayLiteral elements =>
      VArray <$> mapM (eval env this) elements
  | ObjectLiteral properties =>
      VObject <$>
        foldl (λ acc p, o ← acc; v ← eval env this p.2; Some (set o p.1 v))
              (Some []) properties
  | Identifier x => env !! x
  | ThisProperty name => Some (get this name)
  end.

(** An expression written with literals only. *)
Fixpoint literal (e : Expr) : bool :=
  match e with
  | BooleanLiteral _ | StringLiteral _ => true
  | ArrayLiteral elements => forallb literal elements
  | ObjectLiteral properties => forallb (λ p, literal p.2) properties
  | Identifier _ | ThisProperty _ => false
  end.

End Script.

(** ** home.component.ts *)

Module Home.

(** An element of the [services] array literal. *)
Record Service := {
  title : string;
  description : string;
  price : string;
  icon : string;
  color : string;
  image : string;
}.

(** An element of the [stats] array literal. *)
Module Stat.
Record t := { value : string; label : string }.
End Stat.

(** An element of the [footerLinks] array literal. *)
Module FooterLink.
Record t := { label : string; href : string }.
End FooterLink.

(** The instance state of [class HomeComponent]: one component per
    property declaration, with the type the compiler infers for it. *)
Record HomeComponent := {
  isLoggedIn : bool;
  services : list Service;
  stats : list Stat.t;
  footerLinks : list FooterLink.t;
}.

(** [new HomeComponent()].  The class declares no constructor, so the
    implicit one takes no argument and runs the four property
    initialisers in declaration order. *)
Definition new_HomeComponent (_ : unit) : HomeComponent := {|
  isLoggedIn := false;
  services := [
    {| title := "Стрижки и укладки";
       description := "Модные стрижки, профессиональные укладки и окрашивание волос";
       price := "от 1 500 ₽";
       icon := "scissors";
       color := "pink";
       image := "https://images.unsplash.com/photo-1563798163029-5448a0ffd596?w=600&q=80" |};
    {| title := "Маникюр и педикюр";
       description := "Классический и аппаратный маникюр, педикюр, дизайн ногтей";
       price := "от 1 200 ₽";
       icon := "sparkles";
       color := "purple";
       image := "https://images.unsplash.com/photo-1727199433272-70fdb94c8430?w=600&q=80" |};
    {| title := "СПА процедуры";
       description := "Массаж, уход за кожей лица и тела, релаксирующие процедуры";
       price := "от 2 000 ₽";
       icon := "star";
       color := "indigo";
       image := "https://images.unsplash.com/photo-1745327883508-b6cd32e5dde5?w=600&q=80" |}
  ];
  stats := [
    {| Stat.value := "500+"; Stat.label := "Довольных клиентов" |};
    {| Stat.value := "15+";  Stat.label := "Лет опыта" |};
    {| Stat.value := "4.9";  Stat.label := "Рейтинг" |}
  ];
  footerLinks := [
    {| FooterLink.label := "Стрижки";     FooterLink.href := "#" |};
    {| FooterLink.label := "Окрашивание"; FooterLink.href := "#" |};
    {| FooterLink.label := "Маникюр";     FooterLink.href := "#" |};
    {| FooterLink.label := "СПА";         FooterLink.href := "#" |}
  ];
|}.

(** The four fields of a service that the page needs filled in. *)
Definition service_filled (s : Service) : Prop :=
  title s ≠ EmptyString ∧ description s ≠ EmptyString ∧
  price s ≠ EmptyString ∧ image s ≠ EmptyString.

(** Both fields of a stat filled in. *)
Definition stat_filled (s : Stat.t) : Prop :=
  Stat.value s ≠ EmptyString ∧ Stat.label s ≠ EmptyString.

(** *** The class body, member by member

    A member of a class body is either a property declaration with its
    initialiser or a method; a method is run with [this] bound to an
    instance and may assign to its properties, hence the state
    transformer. *)
Inductive ClassElement :=
| PropertyDeclaration (name : string) (initializer : Script.Expr)
| MethodDeclaration (name : string) (body : HomeComponent → HomeComponent).

(** The members between the braces of [export class HomeComponent], as
    written: four property declarations and nothing else. *)
Definition HomeComponent_members : list ClassElement :=
  let str := Script.StringLiteral in
  let obj := Script.ObjectLiteral in
  [ PropertyDeclaration "isLoggedIn" (Script.BooleanLiteral false);
    PropertyDeclaration "services" (Script.ArrayLiteral [
      obj [ ("title", str "Стрижки и укладки");
            ("description", str "Модные стрижки, профессиональные укладки и окрашивание волос");
            ("price", str "от 1 500 ₽");
            ("icon", str "scissors");
            ("color", str "pink");
            ("image", str "https://images.unsplash.com/photo-1563798163029-5448a0ffd596?w=600&q=80") ];
      obj [ ("title", str "Маникюр и педикюр");
            ("description", str "Классический и аппаратный маникюр, педикюр, дизайн ногтей");
            ("price", str "от 1 200 ₽");
            ("icon", str "sparkles");
            ("color", str "purple");
            ("image", str "https://images.unsplash.com/photo-1727199433272-70fdb94c8430?w=600&q=80") ];
      obj [ ("title", str "СПА процедуры");
            ("description", str "Массаж, уход за кожей лица и тела, релаксирующие процедуры");
            ("price", str "от 2 000 ₽");
            ("icon", str "star");
            ("color", str "indigo");
            ("image", str "https://images.unsplash.com/photo-1745327883508-b6cd32e5dde5?w=600&q=80") ]
    ]);
    PropertyDeclaration "stats" (Script.ArrayLiteral [
      obj [ ("value", str "500+"); ("label", str "Довольных клиентов") ];
      obj [ ("value", str "15+");  ("label", str "Лет опыта") ];
      obj [ ("value", str "4.9");  ("label", str "Рейтинг") ]
    ]);
    PropertyDeclaration "footerLinks" (Script.ArrayLiteral [
      obj [ ("label", str "Стрижки");     ("href", str "#") ];
      obj [ ("label", str "Окрашивание"); ("href", str "#") ];
      obj [ ("label", str "Маникюр");     ("href", str "#") ];
      obj [ ("label", str "СПА");         ("href", str "#") ]
    ])
  ].

Definition methods (members : list ClassElement)
  : list (string * (HomeComponent → HomeComponent)) :=
  omap (λ e, match e with
             | PropertyDeclaration _ _ => None
             | MethodDeclaration name body => Some (name, body)
             end) members.

(** A member that reads nothing outside its own text when an instance is
    constructed. *)
Definition self_contained (e : ClassElement) : bool :=
  match e with
  | PropertyDeclaration _ initializer => Script.literal initializer
  | MethodDeclaration _ _ => true
  end.

(** *** Construction

    The class declares no constructor.  The implicit one has no
    parameter; it runs the property initialisers in declaration order on
    the instance under construction, each in the scope [env] the class
    was declared in.  Methods belong to the prototype and add nothing to
    the instance. *)
Fixpoint initialise (env : Script.Env) (this : Script.Object)
         (members : list ClassElement) : option Script.Object :=
  match members with
  | [] => Some this
  | PropertyDeclaration name initializer :: rest =>
      v ← Script.eval env this initializer;
      initialise env (Script.set this name v) rest
  | MethodDeclaration _ _ :: rest => initialise env this rest
  end.

Definition construct (env : Script.Env) : option Script.Object :=
  initialise env [] HomeComponent_members.

(** *** The instance at its static type

    The compiler gives the four properties the types [boolean] and arrays
    of the three object types; [HomeComponent_of] reads an object at
    these types. *)
Definition as_boolean (v : Script.Value) : option bool :=
  match v with Script.VBoolean b => Some b | _ => None end.

Definition as_string (v : Script.Value) : option string :=
  match v with Script.VString s => Some s | _ => None end.

Definition as_array {A} (f : Script.Value → option A) (v : Script.Value)
  : option (list A) :=
  match v with Script.VArray elements => mapM f elements | _ => None end.

Definition Service_of (v : Script.Value) : option Service :=
  match v with
  | Script.VObject o =>
      t ← as_string (Script.get o "title");
      d ← as_string (Script.get o "description");
      p ← as_string (Script.get o "price");
      i ← as_string (Script.get o "icon");
      c ← as_string (Script.get o "color");
      m ← as_string (Script.get o "image");
      Some {| title := t; description := d; price := p;
              icon := i; color := c; image := m |}
  | _ => None
  end.

Definition Stat_of (v : Script.Value) : option Stat.t :=
  match v with
  | Script.VObject o =>
      x ← as_string (Script.get o "value");
      l ← as_string (Script.get o "label");
      Some {| Stat.value := x; Stat.label := l |}
  | _ => None
  end.

Definition FooterLink_of (v : Script.Value) : option FooterLink.t :=
  match v with
  | Script.VObject o =>
      l ← as_string (Script.get o "label");
      h ← as_string (Script.get o "href");
      Some {| FooterLink.label := l; FooterLink.href := h |}
  | _ => None
  end.

Definition HomeComponent_of (o : Script.Object) : option HomeComponent :=
  b ← as_boolean (Script.get o "isLoggedIn");
  ss ← as_array Service_of (Script.get o "services");
  st ← as_array Stat_of (Script.get o "stats");
  fl ← as_array FooterLink_of (Script.get o "footerLinks");
  Some {| isLoggedIn := b; services := ss; stats := st; footerLinks := fl |}.

(** [new HomeComponent()] evaluated in scope [env]. *)
Definition instantiate (env : Script.Env) : option HomeComponent :=
  construct env ≫= HomeComponent_of.

(** *** Writes from outside the class

    The four properties are public and none is [readonly], so whoever
    holds an instance (the template, another class) may assign any value
    of a property's type to it.  A change made in place to an array or to
    one of its elements is the assignment of the resulting list: the
    initialisers build fresh arrays for each instance, so no array is
    shared between two instances. *)
Inductive Write :=
| set_isLoggedIn (v : bool)
| set_services (v : list Service)
| set_stats (v : list Stat.t)
| set_footerLinks (v : list FooterLink.t).

Definition assign (wr : Write) (this : HomeComponent) : HomeComponent :=
  match wr with
  | set_isLoggedIn v =>
      {| isLoggedIn := v; services := services this;
         stats := stats this; footerLinks := footerLinks this |}
  | set_services v =>
      {| isLoggedIn := isLoggedIn this; services := v;
         stats := stats this; footerLinks := footerLinks this |}
  | set_stats v =>
      {| isLoggedIn := isLoggedIn this; services := services this;
         stats := v; footerLinks := footerLinks this |}
  | set_footerLinks v =>
      {| isLoggedIn := isLoggedIn this; services := services this;
         stats := stats this; footerLinks := v |}
  end.

(** *** Life of the instances

    A world is the list of instances created so far, oldest first; an
    instance is known by its position.  Three things can happen: the
    framework constructs an instance, a method of the class is invoked
    on one, or code outside the class assigns to a property of one. *)
Definition World := list HomeComponent.

Inductive Action :=
| Construct (env : Script.Env)
| Invoke (i : nat) (name : string)
| Assign (i : nat) (wr : Write).

Inductive step : World → Action → World → Prop :=
| step_construct (w : World) (env : Script.Env) (c : HomeComponent) :
    instantiate env = Some c →
    step w (Construct env) (w ++ [c])
| step_invoke (w : World) (i : nat) (this : HomeComponent)
              (name : string) (body : HomeComponent → HomeComponent) :
    w !! i = Some this →
    (name, body) ∈ methods HomeComponent_members →
    step w (Invoke i name) (<[i := body this]> w)
| step_assign (w : World) (i : nat) (this : HomeComponent) (wr : Write) :
    w !! i = Some this →
    step w (Assign i wr) (<[i := assign wr this]> w).

(** [run w0 tr w]: the actions [tr], in order, lead from [w0] to [w]. *)
Inductive run (w0 : World) : list Action → World → Prop :=
| run_nil : run w0 [] w0
| run_snoc (tr : list Action) (w : World) (a : Action) (w' : World) :
    run w0 tr w → step w a w' → run w0 (tr ++ [a]) w'.

Definition reachable (w : World) : Prop := ∃ tr, run [] tr w.

End Home.

(** ** The route configuration *)

Module AppRoutes.

(** The component classes the file imports and can refer to. *)
Inductive ComponentType := Login | HomeComponent.

(** One entry of a [Routes] array, with the two keys the source uses. *)
Record Route := { path : string; component : ComponentType }.

Definition Routes := list Route.

(** [export const routes: Routes = [ {path:'',component:HomeComponent} ]] *)
Definition routes : Routes := [
  {| path := EmptyString; component := HomeComponent |}
].

(** The source only declares the table; resolving a URL against it is the
    routing framework's work and is not part of the repository.  [lookup]
    is the table read as data, a finite map from paths to components: the
    component of the first entry whose [path] is exactly [p]. *)
Definition lookup (p : string) (table : Routes) : option ComponentType :=
  component <$> find (λ r, bool_decide (path r = p)) table.

End AppRoutes.

(** ** The [@Component] decorator of [HomeComponent] *)

Module Decorator.

(** What the decorator's [imports] array can name: the two symbols the
    file imports for that purpose. *)
Inductive Dependency := CommonModule | RouterLink.

(** The object literal passed to [@Component], key by key. *)
Record Component := {
  selector : string;
  standalone : bool;
  imports : list Dependency;
  templateUrl : string;
  styleUrls : list string;
}.

Definition HomeComponent_metadata : Component := {|
  selector := "app-home";
  standalone := true;
  imports := [CommonModule; RouterLink];
  templateUrl := "./home.component.html";
  styleUrls := ["./home.component.scss"];
|}.

(** Every file the decorator asks the framework to load. *)
Definition resource_urls (m : Component) : list string :=
  templateUrl m :: styleUrls m.

End Decorator.

(** ** Shapes of strings, for stating what the literals look like *)

Module Text.

Import Stdlib.Strings.Ascii.

Definition is_lower (c : Ascii.ascii) : bool :=
  Ascii.leb "a" c && Ascii.leb c "z".

Definition is_digit (c : Ascii.ascii) : bool :=
  Ascii.leb "0" c && Ascii.leb c "9".

Fixpoint all_chars (f : Ascii.ascii → bool) (s : string) : bool :=
  match s with
  | EmptyString => true
  | String c rest => f c && all_chars f rest
  end.

(** A tag: a non-empty word of lower-case ASCII letters. *)
Definition tag (s : string) : Prop :=
  s ≠ EmptyString ∧ all_chars is_lower s = true.

(** An amount as the page prints it: decimal digits and spaces only,
    the first character a digit other than [0]. *)
Definition amount (s : string) : Prop :=
  (∃ c rest, s = String c rest ∧ is_digit c = true ∧ c ≠ "0"%char) ∧
  all_chars (λ c, is_digit c || bool_decide (c = " "%char)) s = true.

End Text.

(** * Properties *)

Import Home.

(** ** The literal data of a fresh instance *)

Section FreshInstance.

(** Any call of the constructor; it has no argument to vary. *)
Variable u : unit.

(** C2: the authentication flag of a freshly constructed [HomeComponent]
    is [false]. *)
Theorem isLoggedIn_defaults_false : isLoggedIn (new_HomeComponent u) = false.
Proof. reflexivity. Qed.

(** C3: the services list has exactly 3 entries, and each of them has a
    non-empty title, description, price and image. *)
Theorem services_three_filled :
  length (services (new_HomeComponent u)) = 3 ∧
  Forall service_filled (services (new_HomeComponent u)).
Proof.
  split; [reflexivity|].
  repeat apply Forall_cons_2; [..|apply Forall_nil_2];
    repeat split; discriminate.
Qed.

(** C4: the stats list has exactly 3 entries. *)
Theorem stats_three : length (stats (new_HomeComponent u)) = 3.
Proof. reflexivity. Qed.

(** C5: the footer links list has exactly 4 entries. *)
Theorem footerLinks_four : length (footerLinks (new_HomeComponent u)) = 4.
Proof. reflexivity. Qed.

(** C8: every footer link has the placeholder ["#"] as its [href]. *)
Theorem footerLinks_href_placeholder :
  Forall (λ l, FooterLink.href l = "#") (footerLinks (new_HomeComponent u)).
Proof. repeat constructor. Qed.

(** C10: every stat has a non-empty [value] and a non-empty [label]. *)
Theorem stats_value_label_nonempty :
  Forall stat_filled (stats (new_HomeComponent u)).
Proof.
  repeat apply Forall_cons_2; [..|apply Forall_nil_2]; split; discriminate.
Qed.

End FreshInstance.

(** ** The route table *)

(** [lookup] agrees with membership in the table: it fails exactly at the
    paths no entry has, and what it finds is an entry of the table. *)
Lemma lookup_None (p : string) (table : AppRoutes.Routes) :
  AppRoutes.lookup p table = None ↔ p ∉ AppRoutes.path <$> table.
Proof.
  unfold AppRoutes.lookup.
  induction table as [|r table IH]; simpl.
  - split; [intros _; apply not_elem_of_nil | done].
  - rewrite not_elem_of_cons. case_bool_decide as E; simpl.
    + split; [done | intros [Hne _]; by destruct Hne].
    + rewrite IH. split; [by intros ? | by intros [_ ?]].
Qed.

Lemma lookup_Some (p : string) (table : AppRoutes.Routes)
      (c : AppRoutes.ComponentType) :
  AppRoutes.lookup p table = Some c →
  {| AppRoutes.path := p; AppRoutes.component := c |} ∈ table.
Proof.
  unfold AppRoutes.lookup.
  induction table as [|[q d] table IH]; simpl; [done|].
  case_bool_decide as E; simpl in *.
  - intros [= <-]. subst q. apply list_elem_of_here.
  - intros H. apply list_elem_of_further, IH, H.
Qed.

(** C1: the route table maps the root (empty) path to [HomeComponent],
    and no two of its entries have the same path. *)
Theorem routes_root_HomeComponent_unique :
  AppRoutes.lookup EmptyString AppRoutes.routes = Some AppRoutes.HomeComponent ∧
  NoDup (AppRoutes.path <$> AppRoutes.routes).
Proof.
  split; [reflexivity|].
  apply NoDup_singleton.
Qed.

(** C6: a path other than the empty one has no entry in the route table,
    so looking it up yields no component. *)
Theorem routes_only_root (p : string) :
  p ≠ EmptyString →
  (∀ c, {| AppRoutes.path := p; AppRoutes.component := c |} ∉ AppRoutes.routes) ∧
  AppRoutes.lookup p AppRoutes.routes = None.
Proof.
  intros Hp.
  assert (Hnone : AppRoutes.lookup p AppRoutes.routes = None).
  { apply lookup_None. simpl.
    apply not_elem_of_cons; split; [exact Hp | apply not_elem_of_nil]. }
  split; [|exact Hnone].
  intros c Hin. apply list_elem_of_singleton in Hin.
  apply Hp. by injection Hin.
Qed.

(** The path [login] is one such path. *)
Lemma routes_only_root_witness :
  "login" ≠ EmptyString ∧
  (∀ c, {| AppRoutes.path := "login"; AppRoutes.component := c |} ∉ AppRoutes.routes) ∧
  AppRoutes.lookup "login" AppRoutes.routes = None.
Proof.
  split; [discriminate|].
  apply (routes_only_root "login"). discriminate.
Defined.

(** ** Instances over time *)

(** *** Literal expressions evaluate the same everywhere *)

(** Induction on expressions that reaches the elements of an array and
    the properties of an object. *)
Lemma Expr_nested_ind (P : Script.Expr → Prop) :
  (∀ b, P (Script.BooleanLiteral b)) →
  (∀ s, P (Script.StringLiteral s)) →
  (∀ es, Forall P es → P (Script.ArrayLiteral es)) →
  (∀ ps, Forall (λ p, P p.2) ps → P (Script.ObjectLiteral ps)) →
  (∀ x, P (Script.Identifier x)) →
  (∀ n, P (Script.ThisProperty n)) →
  ∀ e, P e.
Proof.
  intros Hb Hs Ha Ho Hx Hn. fix IH 1.
  intros [b|s|es|ps|x|n]; [apply Hb|apply Hs| | |apply Hx|apply Hn].
  - apply Ha. induction es as [|e es IHes]; constructor; [apply IH|exact IHes].
  - apply Ho. induction ps as [|p ps IHps]; constructor; [apply IH|exact IHps].
Qed.

(** A literal expression has a value, the same in every scope and on
    every instance. *)
Lemma literal_eval (e : Script.Expr) :
  Script.literal e = true →
  ∃ v, ∀ env this, Script.eval env this e = Some v.
Proof.
  induction e as [b|s|es IHes|ps IHps|x|n] using Expr_nested_ind;
    simpl; intros Hlit; try discriminate.
  - by eexists.
  - by eexists.
  - assert (∃ vs, ∀ env this, mapM (Script.eval env this) es = Some vs)
      as [vs Hvs].
    { induction IHes as [|e es He _ IH]; simpl in *; [by eexists|].
      apply andb_prop in Hlit as [Hl1 Hl2].
      destruct (He Hl1) as [v Hv], (IH Hl2) as [vs Hvs].
      exists (v :: vs). intros env this. by rewrite Hv, Hvs. }
    exists (Script.VArray vs). intros env this. by rewrite Hvs.
  - assert (∀ o0, ∃ o, ∀ env this,
              foldl (λ acc p, o ← acc; v ← Script.eval env this p.2;
                              Some (Script.set o p.1 v))
                    (Some o0) ps = Some o) as Hfold.
    { induction IHps as [|p ps Hp _ IH]; simpl in *; intros o0; [by eexists|].
      apply andb_prop in Hlit as [Hl1 Hl2].
      destruct (Hp Hl1) as [v Hv].
      destruct (IH Hl2 (Script.set o0 p.1 v)) as [o Ho].
      exists o. intros env this. rewrite Hv. simpl. apply Ho. }
    destruct (Hfold []) as [o Ho].
    exists (Script.VObject o). intros env this. by rewrite Ho.
Qed.

(** A class whose members are all self-contained is initialised the same
    way in every scope. *)
Lemma initialise_self_contained (members : list ClassElement) :
  Forall (λ m, self_contained m = true) members →
  ∀ this, ∃ o, ∀ env, initialise env this members = Some o.
Proof.
  induction 1 as [|m members Hm _ IH]; intros this; simpl; [by eexists|].
  destruct m as [name init|name body]; simpl in Hm.
  - destruct (literal_eval init Hm) as [v Hv].
    destruct (IH (Script.set this name v)) as [o Ho].
    exists o. intros env. rewrite Hv. simpl. apply Ho.
  - apply IH.
Qed.

Lemma HomeComponent_members_self_contained :
  Forall (λ m, self_contained m = true) HomeComponent_members.
Proof. repeat constructor. Qed.

(** Whatever the scope, construction gives the instance written out in
    [new_HomeComponent]. *)
Lemma instantiate_new (env : Script.Env) :
  instantiate env = Some (new_HomeComponent ()).
Proof.
  unfold instantiate, construct.
  destruct (initialise_self_contained _ HomeComponent_members_self_contained [])
    as [o Ho].
  rewrite (Ho env).
  assert (Some o = initialise ∅ [] HomeComponent_members) as Heq
    by (by rewrite Ho).
  vm_compute in Heq. injection Heq as ->. vm_compute. reflexivity.
Qed.

(** The own properties of a constructed instance, in order, in every
    scope. *)
Lemma construct_keys (env : Script.Env) :
  (λ o, o.*1) <$> construct env =
    Some ["isLoggedIn"; "services"; "stats"; "footerLinks"].
Proof.
  unfold construct.
  destruct (initialise_self_contained _ HomeComponent_members_self_contained [])
    as [o Ho].
  rewrite (Ho env).
  assert (Some o = initialise ∅ [] HomeComponent_members) as Heq
    by (by rewrite Ho).
  vm_compute in Heq. injection Heq as ->. reflexivity.
Qed.

(** *** Runs *)

(** The class body has no method, so [step_invoke] never fires. *)
Lemma HomeComponent_no_methods : methods HomeComponent_members = [].
Proof. reflexivity. Qed.

(** Along a run from the empty world, an instance that was never assigned
    to is as it was constructed, whatever was done to the others. *)
Lemma run_unassigned (tr : list Action) (w : World) :
  run [] tr w →
  ∀ i c, w !! i = Some c → (∀ wr, Assign i wr ∉ tr) →
         c = new_HomeComponent ().
Proof.
  induction 1 as [|tr w a w' _ IH Hstep]; intros i c Hi Hfree;
    unfold World in *.
  - by destruct i.
  - assert (Hfree' : ∀ wr, Assign i wr ∉ tr).
    { intros wr Hin. apply (Hfree wr), elem_of_app. by left. }
    destruct Hstep as [w env c' Hc'|w j this name body _ Hm|w j this wr Hj];
      unfold World in *.
    + rewrite instantiate_new in Hc'. injection Hc' as <-.
      apply lookup_app_Some in Hi as [Hi|[_ Hi]].
      * by apply (IH i).
      * apply list_lookup_singleton_Some in Hi as [_ <-]. done.
    + rewrite HomeComponent_no_methods in Hm. by apply elem_of_nil in Hm.
    + destruct (decide (i = j)) as [->|Hne].
      * destruct (Hfree wr). apply elem_of_app. right. apply list_elem_of_here.
      * rewrite list_lookup_insert_ne in Hi by done. by apply (IH i).
Qed.

(** The run that shows the page twice and then logs the first instance
    in from outside. *)
Lemma run_two_one_assigned :
  run [] [Construct ∅; Construct ∅; Assign 0 (set_isLoggedIn true)]
      [assign (set_isLoggedIn true) (new_HomeComponent ());
       new_HomeComponent ()].
Proof.
  apply (run_snoc [] [Construct ∅; Construct ∅]
           [new_HomeComponent (); new_HomeComponent ()]
           (Assign 0 (set_isLoggedIn true))).
  - apply (run_snoc [] [Construct ∅] [new_HomeComponent ()] (Construct ∅)).
    + apply (run_snoc [] [] [] (Construct ∅)); [apply run_nil|].
      apply (step_construct [] ∅), instantiate_new.
    + apply (step_construct [new_HomeComponent ()] ∅), instantiate_new.
  - apply (step_assign [new_HomeComponent (); new_HomeComponent ()] 0
             (new_HomeComponent ())). reflexivity.
Qed.




(** C9: construction is deterministic.  No initialiser reads anything
    outside its own text, so in every scope the constructor returns an
    instance, and two instances constructed in any two scopes are equal
    in all four fields. *)
Theorem construction_deterministic :
  Forall (λ m, self_contained m = true) HomeComponent_members ∧
  (∀ env, is_Some (instantiate env)) ∧
  ∀ (env1 env2 : Script.Env) (c1 c2 : HomeComponent),
    instantiate env1 = Some c1 → instantiate env2 = Some c2 →
    isLoggedIn c1 = isLoggedIn c2 ∧
    services c1 = services c2 ∧
    stats c1 = stats c2 ∧
    footerLinks c1 = footerLinks c2.
Proof.
  split; [exact HomeComponent_members_self_contained|]. split.
  - intros env. rewrite instantiate_new. by eexists.
  - intros env1 env2 c1 c2 H1 H2.
    rewrite instantiate_new in H1, H2.
    injection H1 as <-. injection H2 as <-. done.
Qed.

(** The empty scope against one that binds a name. *)
Lemma construction_deterministic_witness :
  let env1 : Script.Env := ∅ in
  let env2 : Script.Env := {[ "isLoggedIn" := Script.VBoolean true ]} in
  instantiate env1 = Some (new_HomeComponent ()) ∧
  instantiate env2 = Some (new_HomeComponent ()) ∧
  isLoggedIn (new_HomeComponent ()) = isLoggedIn (new_HomeComponent ()) ∧
  services (new_HomeComponent ()) = services (new_HomeComponent ()) ∧
  stats (new_HomeComponent ()) = stats (new_HomeComponent ()) ∧
  footerLinks (new_HomeComponent ()) = footerLinks (new_HomeComponent ()).
Proof.
  intros env1 env2.
  split; [vm_compute; reflexivity|]. split; [vm_compute; reflexivity|].
  apply (proj2 (proj2 construction_deterministic) env1 env2);
    vm_compute; reflexivity.
Defined.

(** ** Further properties of the literal data *)

Section Literals.

Variable u : unit.

(** X1: the three services are told apart by each of their title, icon,
    colour and image: within each of these fields no value occurs
    twice. *)
Theorem services_fields_distinct :
  NoDup (title <$> services (new_HomeComponent u)) ∧
  NoDup (icon <$> services (new_HomeComponent u)) ∧
  NoDup (color <$> services (new_HomeComponent u)) ∧
  NoDup (image <$> services (new_HomeComponent u)).
Proof.
  repeat split; apply (bool_decide_unpack _); vm_compute; reflexivity.
Qed.

(** X2: the icon and the colour of every service are tags, non-empty
    words of lower-case ASCII letters. *)
Theorem services_icon_color_tags :
  Forall (λ s, Text.tag (icon s) ∧ Text.tag (color s))
         (services (new_HomeComponent u)).
Proof.
  repeat apply Forall_cons_2; [..|apply Forall_nil_2];
    repeat split; (discriminate || reflexivity).
Qed.

(** X3: the image of every service is an https URL of a photo on
    images.unsplash.com, with the same sizing query [?w=600&q=80]. *)
Theorem services_image_urls :
  Forall (λ s, ∃ id, id ≠ EmptyString ∧
                 image s = "https://images.unsplash.com/photo-" +:+ id
                           +:+ "?w=600&q=80")
         (services (new_HomeComponent u)).
Proof.
  repeat apply Forall_cons_2; [..|apply Forall_nil_2].
  - exists "1563798163029-5448a0ffd596". split; [discriminate|reflexivity].
  - exists "1727199433272-70fdb94c8430". split; [discriminate|reflexivity].
  - exists "1745327883508-b6cd32e5dde5". split; [discriminate|reflexivity].
Qed.

(** X4: every price reads [от], a space, an amount, a space and the
    rouble sign. *)
Theorem services_price_format :
  Forall (λ s, ∃ a, Text.amount a ∧ price s = "от " +:+ a +:+ " ₽")
         (services (new_HomeComponent u)).
Proof.
  repeat apply Forall_cons_2; [..|apply Forall_nil_2];
    [exists "1 500" | exists "1 200" | exists "2 000"];
    (split; [|reflexivity]); (split; [|reflexivity]);
    eexists _, _; (split; [reflexivity|]); (split; [reflexivity|discriminate]).
Qed.

(** X5: the footer links have non-empty labels, and no label occurs
    twice. *)
Theorem footerLinks_labels_distinct :
  Forall (λ l, FooterLink.label l ≠ EmptyString)
         (footerLinks (new_HomeComponent u)) ∧
  NoDup (FooterLink.label <$> footerLinks (new_HomeComponent u)).
Proof.
  split.
  - repeat apply Forall_cons_2; [..|apply Forall_nil_2]; discriminate.
  - apply (bool_decide_unpack _); vm_compute; reflexivity.
Qed.

(** X6: every stat value starts with a decimal digit, and neither the
    values nor the labels of the stats repeat. *)
Theorem stats_values_numeric_distinct :
  Forall (λ s, ∃ c rest, Stat.value s = String c rest ∧ Text.is_digit c = true)
         (stats (new_HomeComponent u)) ∧
  NoDup (Stat.value <$> stats (new_HomeComponent u)) ∧
  NoDup (Stat.label <$> stats (new_HomeComponent u)).
Proof.
  split; [|split].
  - repeat apply Forall_cons_2; [..|apply Forall_nil_2]; by eexists _, _.
  - apply (bool_decide_unpack _); vm_compute; reflexivity.
  - apply (bool_decide_unpack _); vm_compute; reflexivity.
Qed.

End Literals.

(** ** The decorator *)

(** X7: the component is stand-alone, names each of its two dependencies
    once, and loads only files that sit beside it with its own stem: the
    template and every style sheet are [./home.component.] followed by
    an extension. *)
Theorem decorator_resources_local :
  Decorator.standalone Decorator.HomeComponent_metadata = true ∧
  Decorator.CommonModule ∈ Decorator.imports Decorator.HomeComponent_metadata ∧
  Decorator.RouterLink ∈ Decorator.imports Decorator.HomeComponent_metadata ∧
  NoDup (Decorator.imports Decorator.HomeComponent_metadata) ∧
  Forall (λ url, ∃ ext, ext ≠ EmptyString ∧
                   url = "./home.component." +:+ ext)
         (Decorator.resource_urls Decorator.HomeComponent_metadata).
Proof.
  split; [reflexivity|].
  split; [apply list_elem_of_here|].
  split; [apply list_elem_of_further, list_elem_of_here|].
  split.
  - apply NoDup_cons; split; [|apply NoDup_singleton].
    intros H%list_elem_of_singleton. discriminate H.
  - repeat apply Forall_cons_2; [..|apply Forall_nil_2].
    + exists "html". split; [discriminate|reflexivity].
    + exists "scss". split; [discriminate|reflexivity].
Qed.

(** ** Routes that lead nowhere else *)

(** X8: [Login] is imported by the route file but no route leads to it:
    every entry of the table has [HomeComponent] as its component, and
    no path looks up to [Login]. *)
Theorem routes_never_Login :
  Forall (λ r, AppRoutes.component r = AppRoutes.HomeComponent)
         AppRoutes.routes ∧
  ∀ p : string, AppRoutes.lookup p AppRoutes.routes ≠ Some AppRoutes.Login.
Proof.
  assert (Hall : Forall (λ r, AppRoutes.component r = AppRoutes.HomeComponent)
                        AppRoutes.routes)
    by (apply Forall_singleton; reflexivity).
  split; [exact Hall|].
  intros p Hp. apply lookup_Some in Hp.
  rewrite Forall_forall in Hall. specialize (Hall _ Hp). discriminate Hall.
Qed.
